(** * A Telegram relay bot in front of a hosted LLM: model and verification

    Shallow embedding of the two entry points of the repository:

    - [src/02_main.py]      the long-polling bot        (module [main]);
    - [src/api/webhook.py]  the single-shot HTTP bot    (module [webhook]).

    Both keep a module-level dictionary [user_chats] from Telegram user ids
    to chat-session objects of the LLM client.  Python code is embedded in a
    small state-and-exception monad [Py] over a [World] that holds the
    dictionary, the store of session objects it points into, and the replies
    sent so far.  The LLM client and the HTTP request are external: they are
    taken as values ([genai.GenerativeModel], [Request]) that say what the
    outside world answers.  Logging and [print] are not modelled. *)

From Stdlib Require Import ZArith String Ascii List Lia.
From stdpp Require Import base option list gmap strings.

Local Open Scope Z_scope.

(** ** Python values *)

(** An exception caught by [except Exception as e], identified with
    [str(e)], the only thing the source does with it. *)
Definition Exn : Type := string.

Inductive outcome (A : Type) : Type :=
| Returns (a : A)
| Raises (e : Exn).
Arguments Returns {A} a.
Arguments Raises {A} e.

(** Truth value of a [str]: only the empty string is falsy. *)
Definition truthy (s : string) : bool :=
  match s with
  | EmptyString => false
  | String _ _ => true
  end.

(** Truth value of an [Optional[str]], as in [if not TELEGRAM_BOT_TOKEN] and
    [if finish_reason]: [None] and the empty string are falsy. *)
Definition truthy_opt (o : option string) : bool :=
  match o with
  | None => false
  | Some s => truthy s
  end.

(** [needle in hay] on strings: contiguous substring test. *)
Fixpoint contains (needle hay : string) : bool :=
  String.prefix needle hay ||
  match hay with
  | EmptyString => false
  | String _ rest => contains needle rest
  end.

(** ** The LLM client ([google.generativeai]) *)

Module genai.

(** A [ChatSession] object: the ordered conversation history it holds. *)
Record ChatSession : Type := mkChatSession { history : list string }.

Record SafetyRating : Type := mkSafetyRating {
  blocked : bool;
  category : string          (* [rating.category.name] *)
}.

(** A candidate as [handle_message] probes it: [finish_reason] is [None]
    when [hasattr(candidate, 'finish_reason')] is false and [Some n] when
    [candidate.finish_reason.name] is [n]; likewise for
    [safety_ratings]. *)
Record Candidate : Type := mkCandidate {
  finish_reason : option string;
  safety_ratings : option (list SafetyRating)
}.

(** [response.text] is a property of the client library, so reading it
    may raise. *)
Record GenerateContentResponse : Type := mkResponse {
  text : outcome string;
  candidates : list Candidate
}.

(** What the model object [llm_model] answers.  [start_chat_raises] is
    [Some e] when creating a session raises [e]; [send_message c m] is
    the outcome of sending [m] in a session whose state is [c], together
    with the state the session object is left in. *)
Record GenerativeModel : Type := mkModel {
  start_chat_raises : option Exn;
  send_message : ChatSession -> string ->
                 outcome GenerateContentResponse * ChatSession
}.

(** [llm_model.start_chat(history=h)] *)
Definition start_chat (m : GenerativeModel) (h : list string)
  : outcome ChatSession :=
  match start_chat_raises m with
  | Some e => Raises e
  | None => Returns (mkChatSession h)
  end.

End genai.

#[global] Instance ChatSession_inhabited : Inhabited genai.ChatSession :=
  populate (genai.mkChatSession []).

(** ** The messaging platform ([telegram]) *)

Module telegram.

Record User : Type := mkUser { id : Z; first_name : string }.

(** [bot_command] is the command the message starts with, as the platform
    marks it and as the user typed it, without the slash and without an
    [@name] suffix that names this bot ([Some "start"] for [/start],
    [Some "START"] for [/START]); it is [None] for a message that is not a
    command. *)
Record Message : Type := mkMessage {
  chat_id : Z;
  text : string;
  bot_command : option string
}.

(** An update that carries a message: [update.message] and
    [update.effective_user] are both set, as they are for a new message
    sent to the bot.  The callbacks read both without a guard; the update of
    an edited message, whose [update.message] is [None], is [NoMessage]
    below. *)
Record Update : Type := mkUpdate {
  effective_user : User;
  message : Message
}.

(** An update whose [update.message] is [None] (an edited message): of what
    the callbacks read, only [update.effective_user] is there. *)
Record NoMessage : Type := mkNoMessage { sender : User }.

(** An [Application] of [telegram.ext].  [initialized] is set by
    [await application.initialize()], which [run_polling] does on its
    own. *)
Record Application : Type := mkApplication { initialized : bool }.

(** [Application.builder().token(_).build()]: built, not initialised. *)
Definition build : Application := mkApplication false.

(** The text of the [RuntimeError] that [process_update] raises on an
    application that was not initialised. *)
Definition not_initialized : Exn :=
  "This Application was not initialized via `Application.initialize`!".

End telegram.

(** ** State and effects *)

(** [user_chats] maps a user id to a reference to a session object;
    [sessions] is the store of session objects, a reference being an index
    into it; [outbox] lists the replies sent, oldest first, each with the
    chat it went to. *)
Record World : Type := mkWorld {
  user_chats : gmap Z nat;
  sessions : list genai.ChatSession;
  outbox : list (Z * string)
}.

(** The state of a freshly imported module: [user_chats = {}]. *)
Definition module_init : World := mkWorld ∅ [] [].

Definition Py (A : Type) : Type := World -> outcome A * World.

Definition ret {A} (a : A) : Py A := fun w => (Returns a, w).

Definition raise {A} (e : Exn) : Py A := fun w => (Raises e, w).

Definition bind {A B} (m : Py A) (k : A -> Py B) : Py B :=
  fun w =>
    match m w with
    | (Returns a, w') => k a w'
    | (Raises e, w') => (Raises e, w')
    end.

(** [try: body  except Exception as e: handler e] *)
Definition try_except {A} (body : Py A) (handler : Exn -> Py A) : Py A :=
  fun w =>
    match body w with
    | (Returns a, w') => (Returns a, w')
    | (Raises e, w') => handler e w'
    end.

Declare Scope py_scope.
Delimit Scope py_scope with py.
Notation "x <- m ;; k" := (bind m (fun x => k))
  (at level 100, m at next level, right associativity) : py_scope.
Notation "m ;; k" := (bind m (fun _ => k))
  (at level 100, right associativity) : py_scope.
Local Open Scope py_scope.

(** [user_id in user_chats] *)
Definition user_in_chats (user_id : Z) : Py bool :=
  fun w => (Returns (bool_decide (is_Some (user_chats w !! user_id))), w).

(** [user_chats[user_id] = value], where [value] is the result of a call
    that makes a new object: the call is evaluated first, so when it raises
    nothing is stored. *)
Definition set_user_chat (user_id : Z) (value : outcome genai.ChatSession)
  : Py unit :=
  fun w =>
    match value with
    | Raises e => (Raises e, w)
    | Returns c =>
        (Returns tt,
         mkWorld (<[user_id := length (sessions w)]> (user_chats w))
                 (sessions w ++ [c])
                 (outbox w))
    end.

(** [user_chats[user_id]]: a missing key raises [KeyError]. *)
Definition get_user_chat (user_id : Z) : Py nat :=
  fun w =>
    match user_chats w !! user_id with
    | Some r => (Returns r, w)
    | None => raise "KeyError" w
    end.

(** [chat.send_message(m)] and [await chat.send_message_async(m)] on the
    session object behind the reference [chat]: the object is updated in
    place, whether the call returns or raises. *)
Definition chat_send_message (llm_model : genai.GenerativeModel)
    (chat : nat) (m : string) : Py genai.GenerateContentResponse :=
  fun w =>
    let (r, c') := genai.send_message llm_model (sessions w !!! chat) m in
    (r, mkWorld (user_chats w) (<[chat := c']> (sessions w)) (outbox w)).

(** Reading a value that may raise, such as [response.text]. *)
Definition eval {A} (o : outcome A) : Py A := fun w => (o, w).

(** [await update.message.reply_text(t)] *)
Definition reply_text (update : telegram.Update) (t : string) : Py unit :=
  fun w =>
    (Returns tt,
     mkWorld (user_chats w) (sessions w)
             (outbox w ++ [(telegram.chat_id (telegram.message update), t)])).

(** The statement all four callbacks start with:
    [if user_id not in user_chats:
         user_chats[user_id] = llm_model.start_chat(history=[])] *)
Definition ensure_user_chat (llm_model : genai.GenerativeModel)
    (user_id : Z) : Py unit :=
  present <- user_in_chats user_id ;;
  if negb present
  then set_user_chat user_id (genai.start_chat llm_model [])
  else ret tt.

(** ** Routing ([telegram.ext])

    The dispatcher is the library's; what is modelled is the routing the two
    registrations of the source ask for, the first matching handler being
    the one called. *)

(** [str.lower] on the letters a command is made of. *)
Definition lower_ascii (c : ascii) : ascii :=
  let n := nat_of_ascii c in
  if (65 <=? n)%nat && (n <=? 90)%nat then ascii_of_nat (n + 32) else c.

Fixpoint lower (s : string) : string :=
  match s with
  | EmptyString => EmptyString
  | String c rest => String (lower_ascii c) (lower rest)
  end.

(** [CommandHandler("start", _)]: the command is compared in lower case. *)
Definition is_start_command (update : telegram.Update) : bool :=
  bool_decide
    (lower <$> telegram.bot_command (telegram.message update) = Some "start").

(** [filters.TEXT & ~filters.COMMAND] *)
Definition is_plain_text (update : telegram.Update) : bool :=
  truthy (telegram.text (telegram.message update)) &&
  negb (bool_decide (is_Some (telegram.bot_command (telegram.message update)))).

(** The routing of an update by an initialised application. *)
Definition process_update (start handle_message : telegram.Update -> Py unit)
    (update : telegram.Update) : Py unit :=
  if is_start_command update then start update
  else if is_plain_text update then handle_message update
  else ret tt.

(** [await application.process_update(update)].  The library first checks
    that the application was initialised and raises [RuntimeError] when it
    was not; otherwise it routes the update, an exception of the callback
    going to the registered error handlers. *)
Definition application_process_update (application : telegram.Application)
    (start handle_message : telegram.Update -> Py unit)
    (error_handlers : Exn -> Py unit) (update : telegram.Update) : Py unit :=
  if telegram.initialized application
  then try_except (process_update start handle_message update) error_handlers
  else raise telegram.not_initialized.

(** ** [src/02_main.py]: the long-polling bot *)

Module main.

Definition greeting : string :=
  "¡Hola! Soy tu asistente de IA. Envíame un mensaje para empezar a conversar.".

Definition error_reply : string :=
  "Lo siento, hubo un problema al procesar tu solicitud. Inténtalo de nuevo más tarde.".

Definition start (llm_model : genai.GenerativeModel)
    (update : telegram.Update) : Py unit :=
  let user_id := telegram.id (telegram.effective_user update) in
  ensure_user_chat llm_model user_id ;;
  reply_text update greeting.

Definition handle_message (llm_model : genai.GenerativeModel)
    (update : telegram.Update) : Py unit :=
  let user_message := telegram.text (telegram.message update) in
  let user_id := telegram.id (telegram.effective_user update) in
  ensure_user_chat llm_model user_id ;;
  chat <- get_user_chat user_id ;;
  try_except
    (response <- chat_send_message llm_model chat user_message ;;
     ai_response <- eval (genai.text response) ;;
     reply_text update ai_response)
    (fun e => reply_text update error_reply).

(** [error_handler] only prints. *)
Definition error_handler (update : telegram.Update) (e : Exn) : Py unit :=
  ret tt.

(** [application.run_polling] on the updates the platform delivers, in
    order: each is routed, and an exception of a callback goes to
    [error_handler]. *)
Fixpoint run_polling (llm_model : genai.GenerativeModel)
    (updates : list telegram.Update) : Py unit :=
  match updates with
  | [] => ret tt
  | update :: rest =>
      try_except
        (process_update (start llm_model) (handle_message llm_model) update)
        (error_handler update) ;;
      run_polling llm_model rest
  end.

(** [main()], from a freshly imported module. *)
Definition main (llm_model : genai.GenerativeModel)
    (updates : list telegram.Update) : outcome unit * World :=
  run_polling llm_model updates module_init.

End main.

(** ** [src/api/webhook.py]: the single-shot HTTP bot *)

Module webhook.

Definition greeting (first_name : string) : string :=
  "¡Hola " +:+ first_name +:+
  "! Soy tu asistente de IA. Envíame un mensaje y conversaremos.".

Definition recitation_reply : string :=
  "Lo siento, no puedo proporcionar esa información directamente debido a restricciones de contenido (posible recitación de fuentes). Por favor, intenta reformular tu pregunta.".

Definition safety_reply : string :=
  "Lo siento, no puedo responder a esa pregunta debido a nuestras políticas de seguridad de contenido. Por favor, intenta con otra pregunta.".

Definition other_reason_reply (finish_reason : string) : string :=
  "Lo siento, no pude generar una respuesta clara. Razón: " +:+
  finish_reason +:+ ". ¿Puedes intentar reformular?".

Definition fallback_reply : string :=
  "Lo siento, no pude generar una respuesta para esa pregunta. Por favor, intenta reformularla.".

Definition error_reply : string :=
  "Lo siento, hubo un error al procesar tu solicitud. Por favor, inténtalo de nuevo más tarde.".

Definition start (llm_model : genai.GenerativeModel)
    (update : telegram.Update) : Py unit :=
  let user_id := telegram.id (telegram.effective_user update) in
  ensure_user_chat llm_model user_id ;;
  reply_text update
    (greeting (telegram.first_name (telegram.effective_user update))).

(** The loop over [first_candidate.safety_ratings]: the first blocked
    rating sets [finish_reason] and breaks. *)
Fixpoint first_blocked (ratings : list genai.SafetyRating) : option string :=
  match ratings with
  | [] => None
  | rating :: rest =>
      if genai.blocked rating
      then Some ("SEGURIDAD: " +:+ genai.category rating)
      else first_blocked rest
  end.

(** The value of the local [finish_reason] when the reply is chosen. *)
Definition find_finish_reason (response : genai.GenerateContentResponse)
  : option string :=
  match genai.candidates response with
  | [] => None
  | first_candidate :: _ =>
      match genai.finish_reason first_candidate with
      | Some name => Some name
      | None =>
          match genai.safety_ratings first_candidate with
          | Some ((_ :: _) as ratings) => first_blocked ratings
          | _ => None
          end
      end
  end.

(** The reply for a response without text. *)
Definition empty_response_reply (finish_reason : option string) : string :=
  if truthy_opt finish_reason then
    let reason := default "" finish_reason in
    if contains "RECITATION" reason then recitation_reply
    else if contains "SAFETY" reason then safety_reply
    else other_reason_reply reason
  else fallback_reply.

Definition handle_message (llm_model : genai.GenerativeModel)
    (update : telegram.Update) : Py unit :=
  let user_message := telegram.text (telegram.message update) in
  let user_id := telegram.id (telegram.effective_user update) in
  ensure_user_chat llm_model user_id ;;
  chat_session <- get_user_chat user_id ;;
  try_except
    (response <- chat_send_message llm_model chat_session user_message ;;
     response_text <- eval (genai.text response) ;;
     if truthy response_text
     then reply_text update response_text
     else reply_text update
            (empty_response_reply (find_finish_reason response)))
    (fun e => reply_text update error_reply).

Record Request : Type := mkRequest {
  method : string;
  url : string;
  (** [await request.json()] followed by [Update.de_json]: the decoded
      update, or the exception either step raises. *)
  json : outcome telegram.Update
}.

Record Response : Type := mkResponse { body : string; statusCode : Z }.

Definition liveness_body : string :=
  "Bot está corriendo (webhook endpoint). Envía una petición POST de Telegram.".

(** [handler(request)], with the module-level [TELEGRAM_BOT_TOKEN] (the
    value of [os.getenv]) and [llm_model] as parameters.  The application is
    built anew in each invocation and [initialize] is never awaited on it;
    no error handler is registered. *)
Definition handler (TELEGRAM_BOT_TOKEN : option string)
    (llm_model : genai.GenerativeModel) (request : Request) : Py Response :=
  if negb (truthy_opt TELEGRAM_BOT_TOKEN) then
    ret (mkResponse "Internal Server Error: Bot Token not configured" 500)
  else
    let application := telegram.build in
    if String.eqb (method request) "POST" then
      try_except
        (update <- eval (json request) ;;
         application_process_update application
           (start llm_model) (handle_message llm_model)
           (fun e => ret tt) update ;;
         ret (mkResponse "OK" 200))
        (fun e => ret (mkResponse ("Error: " +:+ e) 500))
    else
      ret (mkResponse liveness_body 200).

End webhook.

(** ** The two variants side by side *)

Inductive variant : Type := long_polling | single_shot.

Definition on_start (v : variant)
  : genai.GenerativeModel -> telegram.Update -> Py unit :=
  match v with
  | long_polling => main.start
  | single_shot => webhook.start
  end.

Definition on_message (v : variant)
  : genai.GenerativeModel -> telegram.Update -> Py unit :=
  match v with
  | long_polling => main.handle_message
  | single_shot => webhook.handle_message
  end.

(** The two kinds of interaction a user has with the bot. *)
Inductive interaction : Type := command_start | text_message.

Definition interact (v : variant) (k : interaction)
  : genai.GenerativeModel -> telegram.Update -> Py unit :=
  match k with
  | command_start => on_start v
  | text_message => on_message v
  end.

(** Reading [attribute] of [None] raises [AttributeError] with this text. *)
Definition none_has_no (attribute : string) : Exn :=
  "'NoneType' object has no attribute '" +:+ attribute +:+ "'".

(** [handle_message] on an update without message, in either file: its
    first statement reads [update.message.text]. *)
Definition handle_message_no_message (update : telegram.NoMessage)
  : Py unit :=
  raise (none_has_no "text").

(** [start] on an update without message, in either file: it reads
    [update.effective_user.id], runs the session-creation statement, and
    then reads [update.message.reply_text], before the greeting is
    formatted. *)
Definition start_no_message (llm_model : genai.GenerativeModel)
    (update : telegram.NoMessage) : Py unit :=
  let user_id := telegram.id (telegram.sender update) in
  ensure_user_chat llm_model user_id ;;
  raise (none_has_no "reply_text").

(** An update as a callback receives it. *)
Inductive incoming : Type :=
| with_message (update : telegram.Update)
| without_message (update : telegram.NoMessage).

Definition receive (v : variant) (k : interaction)
    (llm_model : genai.GenerativeModel) (i : incoming) : Py unit :=
  match i with
  | with_message update => interact v k llm_model update
  | without_message update =>
      match k with
      | command_start => start_no_message llm_model update
      | text_message => handle_message_no_message update
      end
  end.

Definition greeting_of (v : variant) (update : telegram.Update) : string :=
  match v with
  | long_polling => main.greeting
  | single_shot =>
      webhook.greeting (telegram.first_name (telegram.effective_user update))
  end.

Definition error_reply_of (v : variant) : string :=
  match v with
  | long_polling => main.error_reply
  | single_shot => webhook.error_reply
  end.

Definition user_of (update : telegram.Update) : Z :=
  telegram.id (telegram.effective_user update).

Definition chat_of (update : telegram.Update) : Z :=
  telegram.chat_id (telegram.message update).

Definition text_of (update : telegram.Update) : string :=
  telegram.text (telegram.message update).

(** A computation respects a relation [R] on registries when the registry
    it leaves is [R]-related to the one it started from, whether it returns
    or raises. *)
Definition respects (R : gmap Z nat -> gmap Z nat -> Prop) {A} (m : Py A)
  : Prop :=
  forall w, R (user_chats w) (user_chats (snd (m w))).

(** [extends m m']: every entry of the registry [m] is in [m'], unchanged. *)
Definition extends (m m' : gmap Z nat) : Prop := m ⊆ m'.

(** [same_at V m m']: the registries [m] and [m'] agree on the user [V]. *)
Definition same_at (V : Z) (m m' : gmap Z nat) : Prop := m' !! V = m !! V.

(** A well-formed world: every reference in the registry points into the
    store of session objects, and no session object is shared by two
    users. *)
Definition store_ok (w : World) : Prop :=
  (forall u r, user_chats w !! u = Some r -> (r < length (sessions w))%nat) /\
  (forall u v r,
     user_chats w !! u = Some r -> user_chats w !! v = Some r -> u = v).

(** The text [handle_message] replies with, as a function of the outcome of
    the LLM call. *)
Definition reply_for (v : variant)
    (r : outcome genai.GenerateContentResponse) : string :=
  match r with
  | Raises _ => error_reply_of v
  | Returns response =>
      match genai.text response with
      | Raises _ => error_reply_of v
      | Returns t =>
          match v with
          | long_polling => t
          | single_shot =>
              if truthy t then t
              else webhook.empty_response_reply
                     (webhook.find_finish_reason response)
          end
      end
  end.

(** The world a callback leaves when the session behind [chat] ends in
    state [c] and [t] is sent in reply to [update]. *)
Definition after_reply (w : World) (chat : nat) (c : genai.ChatSession)
    (update : telegram.Update) (t : string) : World :=
  mkWorld (user_chats w) (<[chat := c]> (sessions w))
          (outbox w ++ [(chat_of update, t)]).

(** The steps of [handle_message] before its [try]: the session is looked
    up or created, and the reference to it read back. *)
Definition resolve_session (llm_model : genai.GenerativeModel)
    (user_id : Z) : Py nat :=
  ensure_user_chat llm_model user_id ;;
  get_user_chat user_id.

(** The world in which a new session has been stored for [user_id]. *)
Definition with_new_chat (user_id : Z) (w : World) : World :=
  mkWorld (<[user_id := length (sessions w)]> (user_chats w))
          (sessions w ++ [genai.mkChatSession []])
          (outbox w).

(** ** Concrete models and inputs used in the examples *)

(** A model that answers ["first"] in a session without history and
    ["again"] otherwise, and records each message in the history. *)
Definition counting_model : genai.GenerativeModel :=
  genai.mkModel None
    (fun c m =>
       (Returns (genai.mkResponse
                   (Returns (match genai.history c with
                             | [] => "first"
                             | _ :: _ => "again"
                             end))
                   []),
        genai.mkChatSession (genai.history c ++ [m]))).

(** A model that answers every message with the response [r]. *)
Definition constant_model (r : genai.GenerateContentResponse)
  : genai.GenerativeModel :=
  genai.mkModel None (fun c m => (Returns r, c)).

(** A model whose [send_message] raises [e]. *)
Definition failing_model (e : Exn) : genai.GenerativeModel :=
  genai.mkModel None (fun c m => (Raises e, c)).

(** A model for which even [start_chat] raises [e]. *)
Definition refusing_model (e : Exn) : genai.GenerativeModel :=
  genai.mkModel (Some e) (fun c m => (Raises e, c)).

Definition text_update (user_id : Z) (name t : string) : telegram.Update :=
  telegram.mkUpdate (telegram.mkUser user_id name)
                    (telegram.mkMessage user_id t None).

Definition start_update (user_id : Z) (name : string) : telegram.Update :=
  telegram.mkUpdate (telegram.mkUser user_id name)
                    (telegram.mkMessage user_id "/start" (Some "start")).

(** A response without text whose first candidate has no [finish_reason]
    attribute and carries one blocked safety rating. *)
Definition blocked_rating_response : genai.GenerateContentResponse :=
  genai.mkResponse (Returns "")
    [genai.mkCandidate None
       (Some [genai.mkSafetyRating true "HARM_CATEGORY_HATE_SPEECH"])].

(** A response without text whose first candidate stopped for [reason]. *)
Definition stopped_response (reason : string)
  : genai.GenerateContentResponse :=
  genai.mkResponse (Returns "") [genai.mkCandidate (Some reason) None].

Definition post (update : telegram.Update) : webhook.Request :=
  webhook.mkRequest "POST" "/api/webhook" (Returns update).

(** * Verification *)

(** ** The session-creation statement *)

Lemma ensure_user_chat_present llm uid w r :
  user_chats w !! uid = Some r ->
  ensure_user_chat llm uid w = (Returns tt, w).
Proof.
  intros Hr. unfold ensure_user_chat, bind, user_in_chats.
  rewrite bool_decide_eq_true_2 by (rewrite Hr; eauto). reflexivity.
Qed.

Lemma ensure_user_chat_absent llm uid w :
  user_chats w !! uid = None ->
  genai.start_chat_raises llm = None ->
  ensure_user_chat llm uid w = (Returns tt, with_new_chat uid w).
Proof.
  intros Hr Hs. unfold ensure_user_chat, bind, user_in_chats.
  rewrite bool_decide_eq_false_2 by (rewrite Hr; intros [? ?]; discriminate).
  unfold set_user_chat, genai.start_chat. rewrite Hs. reflexivity.
Qed.

Lemma ensure_user_chat_raises llm uid w e :
  user_chats w !! uid = None ->
  genai.start_chat_raises llm = Some e ->
  ensure_user_chat llm uid w = (Raises e, w).
Proof.
  intros Hr Hs. unfold ensure_user_chat, bind, user_in_chats.
  rewrite bool_decide_eq_false_2 by (rewrite Hr; intros [? ?]; discriminate).
  unfold set_user_chat, genai.start_chat. rewrite Hs. reflexivity.
Qed.

(** The three ways the statement can go. *)
Lemma ensure_user_chat_cases llm uid w :
  (exists r, user_chats w !! uid = Some r /\
             ensure_user_chat llm uid w = (Returns tt, w)) \/
  (user_chats w !! uid = None /\ genai.start_chat_raises llm = None /\
   ensure_user_chat llm uid w = (Returns tt, with_new_chat uid w)) \/
  (exists e, user_chats w !! uid = None /\
             genai.start_chat_raises llm = Some e /\
             ensure_user_chat llm uid w = (Raises e, w)).
Proof.
  destruct (user_chats w !! uid) as [r|] eqn:Hr.
  - left. exists r. split; [reflexivity|]. eapply ensure_user_chat_present; eauto.
  - destruct (genai.start_chat_raises llm) as [e|] eqn:Hs.
    + right; right. exists e. eauto using ensure_user_chat_raises.
    + right; left. eauto using ensure_user_chat_absent.
Qed.

Lemma with_new_chat_lookup uid w :
  user_chats (with_new_chat uid w) !! uid = Some (length (sessions w)).
Proof. apply lookup_insert_eq. Qed.

Lemma with_new_chat_session uid w :
  sessions (with_new_chat uid w) !!! length (sessions w)
  = genai.mkChatSession [].
Proof. simpl. apply list_lookup_total_middle. reflexivity. Qed.

(** ** Relations between the registry before and after a computation

    Every primitive but the session-creation statement leaves
    the registry alone, so a callback respects [R] as soon as that statement
    does for the callback's user. *)

Create HintDb respects.

Section registry_relation.

Variable R : gmap Z nat -> gmap Z nat -> Prop.
Hypothesis R_refl : forall m, R m m.
Hypothesis R_trans : forall a b c, R a b -> R b c -> R a c.

#[local] Abbreviation respects := (respects R).

Lemma respects_ret {A} (a : A) : respects (ret a).
Proof. intros w. apply R_refl. Qed.

Lemma respects_eval {A} (o : outcome A) : respects (eval o).
Proof. intros w. apply R_refl. Qed.

Lemma respects_reply_text update t : respects (reply_text update t).
Proof. intros w. apply R_refl. Qed.

Lemma respects_get_user_chat uid : respects (get_user_chat uid).
Proof.
  intros w. unfold get_user_chat.
  destruct (user_chats w !! uid); apply R_refl.
Qed.

Lemma respects_chat_send_message llm chat m :
  respects (chat_send_message llm chat m).
Proof.
  intros w. unfold chat_send_message.
  destruct (genai.send_message llm (sessions w !!! chat) m). apply R_refl.
Qed.

Lemma respects_bind {A B} (m : Py A) (k : A -> Py B) :
  respects m -> (forall a, respects (k a)) -> respects (bind m k).
Proof.
  intros Hm Hk w. unfold bind. specialize (Hm w).
  destruct (m w) as [[a|e] w']; simpl in *.
  - eapply R_trans; [exact Hm | apply Hk].
  - exact Hm.
Qed.

Lemma respects_try_except {A} (body : Py A) (handler : Exn -> Py A) :
  respects body -> (forall e, respects (handler e)) ->
  respects (try_except body handler).
Proof.
  intros Hb Hh w. unfold try_except. specialize (Hb w).
  destruct (body w) as [[a|e] w']; simpl in *.
  - exact Hb.
  - eapply R_trans; [exact Hb | apply Hh].
Qed.

#[local] Hint Resolve respects_ret respects_eval respects_reply_text
  respects_get_user_chat respects_chat_send_message : respects.

Ltac respects_step :=
  first [ apply respects_bind; [|intros ?]
        | apply respects_try_except; [|intros ?]
        | solve [auto with respects] ].

(** The users for whom the session-creation statement respects [R]. *)
Variable covered : Z -> Prop.
Hypothesis respects_ensure :
  forall llm uid, covered uid -> respects (ensure_user_chat llm uid).

Lemma respects_on_start v llm update :
  covered (user_of update) -> respects (on_start v llm update).
Proof.
  intros Hc. destruct v; unfold on_start, main.start, webhook.start;
    (apply respects_bind; [apply respects_ensure; exact Hc | intros ?]);
    auto with respects.
Qed.

Lemma respects_on_message v llm update :
  covered (user_of update) -> respects (on_message v llm update).
Proof.
  intros Hc.
  destruct v; unfold on_message, main.handle_message, webhook.handle_message;
    (apply respects_bind; [apply respects_ensure; exact Hc | intros ?]);
    repeat respects_step.
  match goal with |- context [truthy ?t] => destruct (truthy t) end;
    auto with respects.
Qed.

Lemma respects_interact v k llm update :
  covered (user_of update) -> respects (interact v k llm update).
Proof.
  destruct k; [apply respects_on_start | apply respects_on_message].
Qed.

Lemma respects_process_update v llm update :
  covered (user_of update) ->
  respects (process_update (on_start v llm) (on_message v llm) update).
Proof.
  intros Hc. unfold process_update.
  destruct (is_start_command update); [by apply respects_on_start|].
  destruct (is_plain_text update); [by apply respects_on_message|].
  apply respects_ret.
Qed.

Lemma respects_run_polling llm updates :
  (forall uid, covered uid) ->
  respects (main.run_polling llm updates).
Proof.
  intros Hc. induction updates as [|update rest IH]; simpl.
  - apply respects_ret.
  - apply respects_bind; [|intros ?; exact IH].
    apply respects_try_except; [|intros ?; apply respects_ret].
    apply (respects_process_update long_polling). apply Hc.
Qed.

End registry_relation.

(** ** Running the callbacks *)

Lemma resolve_session_present llm uid w r :
  user_chats w !! uid = Some r ->
  resolve_session llm uid w = (Returns r, w).
Proof.
  intros Hr. unfold resolve_session, bind.
  rewrite (ensure_user_chat_present _ _ _ _ Hr).
  unfold get_user_chat. rewrite Hr. reflexivity.
Qed.

Lemma resolve_session_absent llm uid w :
  user_chats w !! uid = None ->
  genai.start_chat_raises llm = None ->
  resolve_session llm uid w
  = (Returns (length (sessions w)), with_new_chat uid w).
Proof.
  intros Hr Hs. unfold resolve_session, bind.
  rewrite (ensure_user_chat_absent _ _ _ Hr Hs).
  unfold get_user_chat. rewrite with_new_chat_lookup. reflexivity.
Qed.

Lemma resolve_session_raises llm uid w e :
  user_chats w !! uid = None ->
  genai.start_chat_raises llm = Some e ->
  resolve_session llm uid w = (Raises e, w).
Proof.
  intros Hr Hs. unfold resolve_session, bind.
  rewrite (ensure_user_chat_raises _ _ _ _ Hr Hs). reflexivity.
Qed.

(** When session resolution returns, it returns the user's entry and has
    sent nothing. *)
Lemma resolve_session_returns llm uid w chat w1 :
  resolve_session llm uid w = (Returns chat, w1) ->
  user_chats w1 !! uid = Some chat /\ outbox w1 = outbox w.
Proof.
  intros H.
  destruct (ensure_user_chat_cases llm uid w)
    as [(r & Hr & _) | [(Hr & Hs & _) | (e & Hr & Hs & _)]].
  - rewrite (resolve_session_present _ _ _ _ Hr) in H.
    injection H as <- <-. auto.
  - rewrite (resolve_session_absent _ _ _ Hr Hs) in H.
    injection H as <- <-. split; [apply with_new_chat_lookup | reflexivity].
  - rewrite (resolve_session_raises _ _ _ _ Hr Hs) in H. discriminate.
Qed.

(** Once the session is resolved, [handle_message] returns, whatever the
    LLM call does, and sends the one reply [reply_for] names. *)
Lemma on_message_run v llm update w chat w1 r c :
  resolve_session llm (user_of update) w = (Returns chat, w1) ->
  genai.send_message llm (sessions w1 !!! chat) (text_of update) = (r, c) ->
  on_message v llm update w
  = (Returns tt, after_reply w1 chat c update (reply_for v r)).
Proof.
  intros Hres Hsend. unfold resolve_session, bind in Hres.
  destruct v; simpl;
    unfold main.handle_message, webhook.handle_message, bind;
    fold (user_of update); fold (text_of update);
    (destruct (ensure_user_chat llm (user_of update) w) as [[[]|e] w0];
     [|discriminate]);
    rewrite Hres; unfold try_except, bind, chat_send_message;
    rewrite Hsend; unfold eval, reply_for;
    destruct r as [response|e]; try reflexivity;
    destruct (genai.text response) as [t|e]; try reflexivity.
  destruct (truthy t); reflexivity.
Qed.

(** When session resolution raises, the exception leaves [handle_message]
    and nothing is sent. *)
Lemma on_message_resolution_raises v llm update w e w1 :
  resolve_session llm (user_of update) w = (Raises e, w1) ->
  on_message v llm update w = (Raises e, w1).
Proof.
  intros Hres. unfold resolve_session, bind in Hres.
  destruct v; simpl;
    unfold main.handle_message, webhook.handle_message, bind;
    fold (user_of update);
    (destruct (ensure_user_chat llm (user_of update) w) as [[[]|e0] w0];
     [rewrite Hres; reflexivity | injection Hres as <- <-; reflexivity]).
Qed.

Lemma on_start_run v llm update w w1 :
  ensure_user_chat llm (user_of update) w = (Returns tt, w1) ->
  on_start v llm update w
  = (Returns tt,
     mkWorld (user_chats w1) (sessions w1)
             (outbox w1 ++ [(chat_of update, greeting_of v update)])).
Proof.
  intros He.
  destruct v; simpl; unfold main.start, webhook.start, bind;
    fold (user_of update); rewrite He; reflexivity.
Qed.

Lemma on_start_raises v llm update w e w1 :
  ensure_user_chat llm (user_of update) w = (Raises e, w1) ->
  on_start v llm update w = (Raises e, w1).
Proof.
  intros He.
  destruct v; simpl; unfold main.start, webhook.start, bind;
    fold (user_of update); rewrite He; reflexivity.
Qed.

(** ** Substrings *)

Lemma prefix_append (a b : string) : String.prefix a (a +:+ b) = true.
Proof.
  induction a as [|ch a IH]; simpl.
  - destruct b; reflexivity.
  - destruct (ascii_dec ch ch); [exact IH | congruence].
Qed.

Lemma contains_prefix (a b : string) :
  String.prefix a b = true -> contains a b = true.
Proof. intros H. destruct b; cbn [contains]; rewrite H; reflexivity. Qed.

Lemma contains_append_r (x a b : string) :
  contains x b = true -> contains x (a +:+ b) = true.
Proof.
  intros H. induction a as [|ch a IH]; [exact H|].
  change (String ch a +:+ b) with (String ch (a +:+ b)).
  cbn [contains]. rewrite IH. apply orb_true_r.
Qed.

Lemma contains_middle (x a b : string) : contains x (a +:+ x +:+ b) = true.
Proof. apply contains_append_r, contains_prefix, prefix_append. Qed.

Lemma truthy_true (s : string) : s <> "" -> truthy s = true.
Proof. destruct s; [congruence | reflexivity]. Qed.

(** ** The reply to a text message *)

(** C3: when the model response carries non-empty reply text [R],
    [handle_message] returns having sent exactly one reply, and that reply
    is [R] itself; this holds for the long-polling bot and for the
    single-shot bot. *)
Theorem reply_is_model_text v llm update w chat w1 response c R :
  resolve_session llm (user_of update) w = (Returns chat, w1) ->
  genai.send_message llm (sessions w1 !!! chat) (text_of update)
  = (Returns response, c) ->
  genai.text response = Returns R ->
  R <> "" ->
  exists w',
    on_message v llm update w = (Returns tt, w') /\
    outbox w' = outbox w ++ [(chat_of update, R)].
Proof.
  intros Hres Hsend Htext HR.
  rewrite (on_message_run v _ _ _ _ _ _ _ Hres Hsend).
  eexists; split; [reflexivity|]. simpl.
  destruct (resolve_session_returns _ _ _ _ _ Hres) as [_ ->].
  rewrite Htext. destruct v; [reflexivity|].
  rewrite (truthy_true _ HR). reflexivity.
Qed.

Lemma reply_is_model_text_witness :
  exists w',
    on_message single_shot
      (constant_model (genai.mkResponse (Returns "Buenos días") []))
      (text_update 7 "Ana" "hola") module_init = (Returns tt, w') /\
    outbox w' = outbox module_init ++ [(7, "Buenos días")].
Proof.
  apply (reply_is_model_text single_shot
           (constant_model (genai.mkResponse (Returns "Buenos días") []))
           (text_update 7 "Ana" "hola") module_init
           0%nat (with_new_chat 7 module_init)
           (genai.mkResponse (Returns "Buenos días") [])
           (genai.mkChatSession []) "Buenos días").
  - vm_compute. reflexivity.
  - reflexivity.
  - reflexivity.
  - discriminate.
Defined.

(** ** Exceptions *)

(** C4, as stated, fails: an exception raised while the session is being
    resolved is raised before the [try] statement is entered.  With a model
    whose [start_chat] raises, [handle_message] for a new user raises the
    same exception and sends no reply, in both variants. *)
Lemma session_resolution_exception_escapes :
  genai.start_chat (refusing_model "quota exceeded") []
  = Raises "quota exceeded" /\
  main.handle_message (refusing_model "quota exceeded")
    (text_update 7 "Ana" "hola") module_init
  = (Raises "quota exceeded", module_init) /\
  webhook.handle_message (refusing_model "quota exceeded")
    (text_update 7 "Ana" "hola") module_init
  = (Raises "quota exceeded", module_init) /\
  outbox module_init = [].
Proof. repeat split; vm_compute; reflexivity. Qed.

(** C4, amended: when the session has been resolved and the LLM call
    raises, or reading the text of its response raises, [handle_message]
    catches the exception, returns, and has sent exactly one reply, the
    fixed error message of its variant. *)
Theorem llm_exception_is_caught v llm update w chat w1 r c e :
  resolve_session llm (user_of update) w = (Returns chat, w1) ->
  genai.send_message llm (sessions w1 !!! chat) (text_of update) = (r, c) ->
  r = Raises e \/
  (exists response, r = Returns response /\ genai.text response = Raises e) ->
  exists w',
    on_message v llm update w = (Returns tt, w') /\
    outbox w' = outbox w ++ [(chat_of update, error_reply_of v)].
Proof.
  intros Hres Hsend Hraise.
  rewrite (on_message_run v _ _ _ _ _ _ _ Hres Hsend).
  eexists; split; [reflexivity|]. simpl.
  destruct (resolve_session_returns _ _ _ _ _ Hres) as [_ ->].
  destruct Hraise as [-> | (response & -> & Htext)]; simpl;
    [|rewrite Htext]; reflexivity.
Qed.

Lemma llm_exception_is_caught_witness :
  exists w',
    on_message long_polling (failing_model "timeout")
      (text_update 7 "Ana" "hola") module_init = (Returns tt, w') /\
    outbox w' = outbox module_init ++ [(7, main.error_reply)].
Proof.
  apply (llm_exception_is_caught long_polling (failing_model "timeout")
           (text_update 7 "Ana" "hola") module_init
           0%nat (with_new_chat 7 module_init)
           (Raises "timeout") (genai.mkChatSession []) "timeout").
  - vm_compute. reflexivity.
  - reflexivity.
  - left. reflexivity.
Defined.

(** ** Responses without text *)

(** With the session resolved and a response whose text is empty, the
    single reply is chosen from the finish reason alone. *)
Lemma empty_response_run llm update w chat w1 response c :
  resolve_session llm (user_of update) w = (Returns chat, w1) ->
  genai.send_message llm (sessions w1 !!! chat) (text_of update)
  = (Returns response, c) ->
  genai.text response = Returns "" ->
  exists w',
    webhook.handle_message llm update w = (Returns tt, w') /\
    outbox w'
    = outbox w ++ [(chat_of update,
                    webhook.empty_response_reply
                      (webhook.find_finish_reason response))].
Proof.
  intros Hres Hsend Htext.
  pose proof (on_message_run single_shot _ _ _ _ _ _ _ Hres Hsend) as Hrun.
  simpl in Hrun. rewrite Hrun. eexists; split; [reflexivity|]. simpl.
  destruct (resolve_session_returns _ _ _ _ _ Hres) as [_ ->].
  rewrite Htext. reflexivity.
Qed.

(** A safety block signalled by the finish reason gets the safety-policy
    message. *)
Lemma safety_finish_reason_reply response first rest X :
  genai.candidates response = first :: rest ->
  genai.finish_reason first = Some X ->
  contains "RECITATION" X = false ->
  contains "SAFETY" X = true ->
  webhook.empty_response_reply (webhook.find_finish_reason response)
  = webhook.safety_reply.
Proof.
  intros Hc Hf Hrec Hsafe.
  unfold webhook.find_finish_reason. rewrite Hc, Hf.
  unfold webhook.empty_response_reply. simpl.
  destruct X as [|ch X]; [discriminate Hsafe|].
  cbn [truthy]. rewrite Hrec, Hsafe. reflexivity.
Qed.

(** C2, evaluated on the code: a safety block signalled by the finish
    reason [SAFETY] is answered with the safety-policy message, but a safety
    block signalled by a blocked safety rating is not.  The rating sets the
    reason to ["SEGURIDAD: <category>"], in which the test for ["SAFETY"]
    finds nothing, so the reply is the templated other-reason message. *)
Theorem blocked_rating_gets_templated_reply :
  outbox (snd (webhook.handle_message
                 (constant_model (stopped_response "SAFETY"))
                 (text_update 7 "Ana" "hola") module_init))
  = [(7, webhook.safety_reply)] /\
  webhook.find_finish_reason blocked_rating_response
  = Some "SEGURIDAD: HARM_CATEGORY_HATE_SPEECH" /\
  outbox (snd (webhook.handle_message
                 (constant_model blocked_rating_response)
                 (text_update 7 "Ana" "hola") module_init))
  = [(7, webhook.other_reason_reply "SEGURIDAD: HARM_CATEGORY_HATE_SPEECH")] /\
  webhook.other_reason_reply "SEGURIDAD: HARM_CATEGORY_HATE_SPEECH"
  <> webhook.safety_reply.
Proof.
  repeat split; try (vm_compute; reflexivity).
  vm_compute. discriminate.
Qed.

(** C7: in the single-shot bot, when the response has empty text and the
    first candidate's finish reason is [X]: if [X] is a recitation reason
    the one reply is the fixed recitation message, which is not the generic
    fallback; if [X] is neither a recitation nor a safety reason the one
    reply contains [X] verbatim, being the other-reason template filled with
    [X] whenever [X] is not empty. *)
Theorem finish_reason_reply llm update w chat w1 response c first rest X :
  resolve_session llm (user_of update) w = (Returns chat, w1) ->
  genai.send_message llm (sessions w1 !!! chat) (text_of update)
  = (Returns response, c) ->
  genai.text response = Returns "" ->
  genai.candidates response = first :: rest ->
  genai.finish_reason first = Some X ->
  exists w' reply,
    webhook.handle_message llm update w = (Returns tt, w') /\
    outbox w' = outbox w ++ [(chat_of update, reply)] /\
    (contains "RECITATION" X = true ->
       reply = webhook.recitation_reply /\ reply <> webhook.fallback_reply) /\
    (contains "RECITATION" X = false -> contains "SAFETY" X = false ->
       contains X reply = true /\
       (X <> "" -> reply = webhook.other_reason_reply X)).
Proof.
  intros Hres Hsend Htext Hc Hf.
  destruct (empty_response_run _ _ _ _ _ _ _ Hres Hsend Htext)
    as (w' & Hrun & Hout).
  exists w', (webhook.empty_response_reply (webhook.find_finish_reason response)).
  split; [exact Hrun|]. split; [exact Hout|].
  unfold webhook.find_finish_reason. rewrite Hc, Hf.
  unfold webhook.empty_response_reply. simpl.
  destruct X as [|ch X].
  - split; [discriminate|]. intros _ _. split; [reflexivity|congruence].
  - cbn [truthy]. split.
    + intros ->. split; [reflexivity|]. vm_compute. discriminate.
    + intros -> ->. split; [|reflexivity].
      unfold webhook.other_reason_reply. apply contains_middle.
Qed.

Lemma finish_reason_reply_witness :
  (exists w',
     webhook.handle_message (constant_model (stopped_response "RECITATION"))
       (text_update 7 "Ana" "hola") module_init = (Returns tt, w') /\
     outbox w' = [(7, webhook.recitation_reply)]) /\
  (exists w',
     webhook.handle_message (constant_model (stopped_response "MAX_TOKENS"))
       (text_update 7 "Ana" "hola") module_init = (Returns tt, w') /\
     outbox w' = [(7, webhook.other_reason_reply "MAX_TOKENS")]).
Proof.
  split.
  - destruct (finish_reason_reply
                (constant_model (stopped_response "RECITATION"))
                (text_update 7 "Ana" "hola") module_init
                0%nat (with_new_chat 7 module_init)
                (stopped_response "RECITATION") (genai.mkChatSession [])
                (genai.mkCandidate (Some "RECITATION") None) [] "RECITATION")
      as (w' & reply & Hrun & Hout & Hrec & _);
      [vm_compute; reflexivity | reflexivity ..|].
    exists w'. split; [exact Hrun|].
    destruct (Hrec eq_refl) as [-> _]. exact Hout.
  - destruct (finish_reason_reply
                (constant_model (stopped_response "MAX_TOKENS"))
                (text_update 7 "Ana" "hola") module_init
                0%nat (with_new_chat 7 module_init)
                (stopped_response "MAX_TOKENS") (genai.mkChatSession [])
                (genai.mkCandidate (Some "MAX_TOKENS") None) [] "MAX_TOKENS")
      as (w' & reply & Hrun & Hout & _ & Hother);
      [vm_compute; reflexivity | reflexivity ..|].
    exists w'. split; [exact Hrun|].
    destruct (Hother eq_refl eq_refl) as [_ Heq].
    rewrite (Heq ltac:(discriminate)) in Hout. exact Hout.
Defined.

(** ** The registry across a callback *)

Lemma ensure_user_chat_frame llm uid V :
  uid <> V ->
  respects (same_at V) (ensure_user_chat llm uid).
Proof.
  intros Hne w.
  destruct (ensure_user_chat_cases llm uid w)
    as [(r & _ & ->) | [(_ & _ & ->) | (e & _ & _ & ->)]]; simpl.
  - reflexivity.
  - apply lookup_insert_ne. exact Hne.
  - reflexivity.
Qed.

Lemma same_at_refl V m : same_at V m m.
Proof. reflexivity. Qed.

Lemma same_at_trans V a b c : same_at V a b -> same_at V b c -> same_at V a c.
Proof. unfold same_at. congruence. Qed.

Lemma extends_refl m : extends m m.
Proof. unfold extends. reflexivity. Qed.

Lemma ensure_user_chat_subseteq llm uid :
  respects extends (ensure_user_chat llm uid).
Proof.
  intros w. unfold extends.
  destruct (ensure_user_chat_cases llm uid w)
    as [(r & _ & ->) | [(Hr & _ & ->) | (e & _ & _ & ->)]]; simpl.
  - reflexivity.
  - apply insert_subseteq. exact Hr.
  - reflexivity.
Qed.

Lemma extends_trans a b c : extends a b -> extends b c -> extends a c.
Proof. unfold extends. intros Hab Hbc. etrans; eassumption. Qed.

(** An entry of the registry survives whatever respects [extends]. *)
Lemma extends_lookup {A} (m : Py A) w uid r :
  respects extends m ->
  user_chats w !! uid = Some r ->
  user_chats (snd (m w)) !! uid = Some r.
Proof. intros Hm Hr. eapply lookup_weaken; [exact Hr | apply Hm]. Qed.

Lemma run_polling_extends llm updates :
  respects extends (main.run_polling llm updates).
Proof.
  apply (respects_run_polling extends extends_refl extends_trans
           (fun _ => True)); [|exact (fun _ => I)].
  intros llm' uid _. apply ensure_user_chat_subseteq.
Qed.

(** [handler] leaves the world as it found it: where it gets as far as
    [process_update], the application it built is not initialised. *)
Lemma handler_keeps_world token llm request w :
  snd (webhook.handler token llm request w) = w.
Proof.
  unfold webhook.handler.
  destruct (negb (truthy_opt token)); [reflexivity|].
  destruct (String.eqb _ _); [|reflexivity].
  unfold try_except, bind, eval.
  destruct (webhook.json request); reflexivity.
Qed.

Lemma handler_extends token llm request :
  respects extends (webhook.handler token llm request).
Proof. intros w. rewrite handler_keeps_world. apply extends_refl. Qed.

(** ** The store of session objects

    The total lookup in [chat_send_message] never falls back on its default:
    references stay inside the store, and each session object belongs to
    one user. *)

Lemma store_ok_init : store_ok module_init.
Proof.
  split; simpl; [intros u r H | intros u v r H _];
    rewrite lookup_empty in H; discriminate.
Qed.

Lemma store_ok_with_new_chat uid w :
  user_chats w !! uid = None -> store_ok w -> store_ok (with_new_chat uid w).
Proof.
  intros Habs [Hin Hinj]. split; simpl.
  - intros u r. rewrite length_app. simpl.
    destruct (decide (uid = u)) as [<-|Hne].
    + rewrite lookup_insert_eq. intros [= <-]. lia.
    + rewrite lookup_insert_ne by exact Hne. intros Hr.
      specialize (Hin u r Hr). lia.
  - intros u v r.
    destruct (decide (uid = u)) as [<-|Hu], (decide (uid = v)) as [<-|Hv];
      rewrite ?lookup_insert_eq, ?lookup_insert_ne by assumption.
    + reflexivity.
    + intros [= <-] Hr. specialize (Hin v _ Hr). lia.
    + intros Hr [= <-]. specialize (Hin u _ Hr). lia.
    + apply Hinj.
Qed.

(** Replacing the state of a session object and sending a reply keep the
    world well formed. *)
Lemma store_ok_after w1 w' :
  user_chats w' = user_chats w1 ->
  length (sessions w') = length (sessions w1) ->
  store_ok w1 -> store_ok w'.
Proof.
  intros Hu Hl [Hin Hinj]. split; rewrite Hu, ?Hl; assumption.
Qed.

Lemma ensure_user_chat_store_ok llm uid w :
  store_ok w -> store_ok (snd (ensure_user_chat llm uid w)).
Proof.
  intros Hok.
  destruct (ensure_user_chat_cases llm uid w)
    as [(r & _ & ->) | [(Hr & _ & ->) | (e & _ & _ & ->)]]; simpl.
  - exact Hok.
  - apply store_ok_with_new_chat; assumption.
  - exact Hok.
Qed.

Lemma interact_store_ok v k llm update w :
  store_ok w -> store_ok (snd (interact v k llm update w)).
Proof.
  intros Hok.
  pose proof (ensure_user_chat_store_ok llm (user_of update) w Hok) as Hok1.
  destruct (ensure_user_chat llm (user_of update) w) as [[[]|e] w1] eqn:He;
    simpl in Hok1.
  - destruct k; simpl.
    + rewrite (on_start_run v _ _ _ _ He). simpl.
      eapply store_ok_after; [| |exact Hok1]; reflexivity.
    + destruct (get_user_chat (user_of update) w1) as [[chat|e] w2] eqn:Hg.
      * assert (w2 = w1) as ->.
        { unfold get_user_chat in Hg.
          destruct (user_chats w1 !! user_of update); unfold raise in Hg;
            congruence. }
        assert (resolve_session llm (user_of update) w = (Returns chat, w1))
          as Hres by (unfold resolve_session, bind; rewrite He; exact Hg).
        destruct (genai.send_message llm (sessions w1 !!! chat)
                    (text_of update)) as [r c] eqn:Hsend.
        rewrite (on_message_run v _ _ _ _ _ _ _ Hres Hsend). simpl.
        eapply store_ok_after; [| |exact Hok1]; simpl;
          [reflexivity | apply length_insert].
      * assert (w2 = w1) as ->.
        { unfold get_user_chat in Hg.
          destruct (user_chats w1 !! user_of update); unfold raise in Hg;
            congruence. }
        assert (resolve_session llm (user_of update) w = (Raises e, w1))
          as Hres by (unfold resolve_session, bind; rewrite He; exact Hg).
        rewrite (on_message_resolution_raises v _ _ _ _ _ Hres). exact Hok1.
  - destruct k; simpl.
    + rewrite (on_start_raises v _ _ _ _ _ He). exact Hok1.
    + assert (resolve_session llm (user_of update) w = (Raises e, w1))
        as Hres by (unfold resolve_session, bind; rewrite He; reflexivity).
      rewrite (on_message_resolution_raises v _ _ _ _ _ Hres). exact Hok1.
Qed.

(** X18: in a well-formed world, an interaction of a user, in either
    variant and on every path, leaves the session object of every other user
    in the state it was in: the model is only ever called on the session of
    the user who wrote. *)
Lemma other_users_session_untouched v k llm update w V r :
  store_ok w ->
  V <> user_of update ->
  user_chats w !! V = Some r ->
  sessions (snd (interact v k llm update w)) !! r = sessions w !! r.
Proof.
  intros Hok Hne HV.
  assert (forall w1 chat,
            resolve_session llm (user_of update) w = (Returns chat, w1) ->
            chat <> r /\ sessions w1 !! r = sessions w !! r) as Hchat.
  { intros w1 chat Hres.
    destruct (ensure_user_chat_cases llm (user_of update) w)
      as [(r0 & Hr & _) | [(Hr & Hs & _) | (e & Hr & Hs & _)]].
    - rewrite (resolve_session_present _ _ _ _ Hr) in Hres.
      injection Hres as <- <-. split; [|reflexivity].
      intros ->. destruct Hok as [_ Hinj]. apply Hne. eapply Hinj; eauto.
    - rewrite (resolve_session_absent _ _ _ Hr Hs) in Hres.
      injection Hres as <- <-. destruct Hok as [Hin _].
      specialize (Hin _ _ HV). split; [lia|]. simpl.
      apply lookup_app_l. exact Hin.
    - rewrite (resolve_session_raises _ _ _ _ Hr Hs) in Hres. discriminate. }
  destruct k; simpl.
  - destruct (ensure_user_chat_cases llm (user_of update) w)
      as [(r0 & Hr & He) | [(Hr & Hs & He) | (e & Hr & Hs & He)]].
    + rewrite (on_start_run v _ _ _ _ He). reflexivity.
    + rewrite (on_start_run v _ _ _ _ He). simpl.
      apply lookup_app_l. destruct Hok as [Hin _]. eapply Hin; eauto.
    + rewrite (on_start_raises v _ _ _ _ _ He). reflexivity.
  - destruct (resolve_session llm (user_of update) w) as [[chat|e] w1] eqn:Hres.
    + destruct (Hchat w1 chat eq_refl) as [Hcr Hs].
      destruct (genai.send_message llm (sessions w1 !!! chat)
                  (text_of update)) as [res c] eqn:Hsend.
      rewrite (on_message_run v _ _ _ _ _ _ _ Hres Hsend). simpl.
      rewrite list_lookup_insert_ne by exact Hcr. exact Hs.
    + rewrite (on_message_resolution_raises v _ _ _ _ _ Hres). simpl.
      destruct (ensure_user_chat_cases llm (user_of update) w)
        as [(r0 & Hr & _) | [(Hr & Hs & _) | (e0 & Hr & Hs & _)]].
      * rewrite (resolve_session_present _ _ _ _ Hr) in Hres. discriminate.
      * rewrite (resolve_session_absent _ _ _ Hr Hs) in Hres. discriminate.
      * rewrite (resolve_session_raises _ _ _ _ Hr Hs) in Hres.
        injection Hres as _ <-. reflexivity.
Qed.

(** C10: for distinct users U and V, an invocation of [start] or of
    [handle_message] for U, in either variant, leaves the registry entry of
    V as it was: present it stays the same, absent it stays absent; this
    holds whether the callback returns or raises. *)
Theorem other_users_entry_unchanged v k llm update w V :
  V <> user_of update ->
  user_chats (snd (interact v k llm update w)) !! V = user_chats w !! V.
Proof.
  intros Hne.
  apply (respects_interact (same_at V) (same_at_refl V) (same_at_trans V)
           (fun uid => uid <> V)).
  - intros llm' uid Huid. apply ensure_user_chat_frame. exact Huid.
  - congruence.
Qed.

Lemma other_users_entry_unchanged_witness :
  user_chats
    (snd (interact single_shot text_message (failing_model "timeout")
            (text_update 7 "Ana" "hola")
            (with_new_chat 8 module_init))) !! 8
  = user_chats (with_new_chat 8 module_init) !! 8.
Proof.
  apply (other_users_entry_unchanged single_shot text_message
           (failing_model "timeout") (text_update 7 "Ana" "hola")
           (with_new_chat 8 module_init) 8).
  vm_compute. discriminate.
Defined.

(** C9: when [handle_message] creates the entry of a user who had none and
    the LLM call that follows raises, the callback returns with the new
    entry in the registry, and the fixed error reply sent; nothing is
    rolled back.  This holds in both variants. *)
Theorem new_entry_survives_llm_exception v llm update w e c :
  user_chats w !! user_of update = None ->
  genai.start_chat_raises llm = None ->
  genai.send_message llm (genai.mkChatSession []) (text_of update)
  = (Raises e, c) ->
  exists w',
    on_message v llm update w = (Returns tt, w') /\
    user_chats w' !! user_of update = Some (length (sessions w)) /\
    user_chats w' = <[user_of update := length (sessions w)]> (user_chats w) /\
    length (sessions w') = S (length (sessions w)) /\
    outbox w' = outbox w ++ [(chat_of update, error_reply_of v)].
Proof.
  intros Habs Hstart Hsend.
  pose proof (resolve_session_absent llm _ _ Habs Hstart) as Hres.
  rewrite <- (with_new_chat_session (user_of update) w) in Hsend.
  rewrite (on_message_run v _ _ _ _ _ _ _ Hres Hsend).
  eexists; split; [reflexivity|]. simpl.
  split; [apply lookup_insert_eq|]. split; [reflexivity|].
  split; [|reflexivity].
  rewrite length_insert, length_app. simpl. lia.
Qed.

Lemma new_entry_survives_llm_exception_witness :
  exists w',
    on_message single_shot (failing_model "timeout")
      (text_update 7 "Ana" "hola") module_init = (Returns tt, w') /\
    user_chats w' !! 7 = Some 0%nat /\
    user_chats w' = <[7 := 0%nat]> (user_chats module_init) /\
    length (sessions w') = 1%nat /\
    outbox w' = outbox module_init ++ [(7, webhook.error_reply)].
Proof.
  apply (new_entry_survives_llm_exception single_shot
           (failing_model "timeout") (text_update 7 "Ana" "hola")
           module_init "timeout" (genai.mkChatSession [])).
  - reflexivity.
  - reflexivity.
  - reflexivity.
Defined.

(** ** One entry per user *)

Lemma filter_key_absent (l : list (Z * nat)) uid :
  uid ∉ l.*1 -> filter (fun kv => kv.1 = uid) l = [].
Proof.
  induction l as [|[k x] l IH]; [reflexivity|].
  rewrite fmap_cons, not_elem_of_cons. simpl. intros [Hne Hl].
  rewrite filter_cons_False by (simpl; congruence). apply IH, Hl.
Qed.

Lemma filter_key_nodup (l : list (Z * nat)) uid :
  NoDup l.*1 -> (length (filter (fun kv => kv.1 = uid) l) <= 1)%nat.
Proof.
  induction l as [|[k x] l IH]; [simpl; lia|].
  rewrite fmap_cons, NoDup_cons. simpl. intros [Hk Hl].
  destruct (decide (k = uid)) as [->|Hne].
  - rewrite filter_cons_True by reflexivity.
    rewrite (filter_key_absent _ _ Hk). simpl. lia.
  - rewrite filter_cons_False by (simpl; congruence). apply IH, Hl.
Qed.

Lemma at_most_one_entry (m : gmap Z nat) uid :
  (length (filter (fun kv => kv.1 = uid) (map_to_list m)) <= 1)%nat.
Proof. apply filter_key_nodup, NoDup_fst_map_to_list. Qed.

(** What an interaction of a user without entry does to the registry and
    to the store, when the session can be created. *)
Lemma interact_absent v k llm update w :
  user_chats w !! user_of update = None ->
  genai.start_chat_raises llm = None ->
  fst (interact v k llm update w) = Returns tt /\
  user_chats (snd (interact v k llm update w))
  = <[user_of update := length (sessions w)]> (user_chats w) /\
  length (sessions (snd (interact v k llm update w)))
  = S (length (sessions w)).
Proof.
  intros Habs Hstart. destruct k; simpl.
  - rewrite (on_start_run v _ _ _ _
               (ensure_user_chat_absent llm _ _ Habs Hstart)).
    simpl. rewrite length_app. simpl. repeat split. lia.
  - pose proof (resolve_session_absent llm _ _ Habs Hstart) as Hres.
    destruct (genai.send_message llm
                (sessions (with_new_chat (user_of update) w)
                   !!! length (sessions w)) (text_of update))
      as [r c] eqn:Hsend.
    rewrite (on_message_run v _ _ _ _ _ _ _ Hres Hsend). simpl.
    rewrite length_insert, length_app. simpl. repeat split. lia.
Qed.

(** What an interaction of a user with an entry does to them. *)
Lemma interact_present v k llm update w r :
  user_chats w !! user_of update = Some r ->
  fst (interact v k llm update w) = Returns tt /\
  user_chats (snd (interact v k llm update w)) = user_chats w /\
  length (sessions (snd (interact v k llm update w))) = length (sessions w).
Proof.
  intros Hr. destruct k; simpl.
  - rewrite (on_start_run v _ _ _ _ (ensure_user_chat_present llm _ _ _ Hr)).
    repeat split.
  - pose proof (resolve_session_present llm _ _ _ Hr) as Hres.
    destruct (genai.send_message llm (sessions w !!! r) (text_of update))
      as [res c] eqn:Hsend.
    rewrite (on_message_run v _ _ _ _ _ _ _ Hres Hsend). simpl.
    rewrite length_insert. repeat split.
Qed.




(** ** The HTTP handler *)

Lemma handler_post_undecoded token llm request w e :
  truthy_opt token = true ->
  webhook.method request = "POST" ->
  webhook.json request = Raises e ->
  webhook.handler token llm request w
  = (Returns (webhook.mkResponse ("Error: " +:+ e) 500), w).
Proof.
  intros Htok Hm Hjson. unfold webhook.handler. rewrite Htok, Hm. simpl.
  unfold try_except, bind, eval. rewrite Hjson. reflexivity.
Qed.

Lemma handler_post_decoded token llm request w update :
  truthy_opt token = true ->
  webhook.method request = "POST" ->
  webhook.json request = Returns update ->
  webhook.handler token llm request w
  = (Returns (webhook.mkResponse
                ("Error: " +:+ telegram.not_initialized) 500), w).
Proof.
  intros Htok Hm Hjson. unfold webhook.handler. rewrite Htok, Hm. simpl.
  unfold try_except, bind, eval. rewrite Hjson. reflexivity.
Qed.

(** C5: the status contract of [handler].  (1) When the bot token is not
    configured, every request, whatever its method and body, gets status
    500 with the fixed configuration-error body, and nothing else happens.
    With the token configured: (2) a request that is not a POST, such as a
    GET, gets status 200 with the liveness body; (3) a POST whose body does
    not decode gets status 500 with the text of the error after
    ["Error: "]; (4) a POST whose body decodes fails while the update is
    processed, the application never having been initialised, and gets
    status 500 with the text of that error after ["Error: "]; no callback
    is run. *)
Theorem handler_status_contract token llm request w :
  (truthy_opt token = false ->
   webhook.handler token llm request w
   = (Returns (webhook.mkResponse
                 "Internal Server Error: Bot Token not configured" 500), w)) /\
  (truthy_opt token = true ->
   webhook.method request <> "POST" ->
   webhook.handler token llm request w
   = (Returns (webhook.mkResponse webhook.liveness_body 200), w)) /\
  (truthy_opt token = true ->
   webhook.method request = "POST" ->
   forall e,
     webhook.json request = Raises e ->
     webhook.handler token llm request w
     = (Returns (webhook.mkResponse ("Error: " +:+ e) 500), w)) /\
  (truthy_opt token = true ->
   webhook.method request = "POST" ->
   forall update,
     webhook.json request = Returns update ->
     webhook.handler token llm request w
     = (Returns (webhook.mkResponse
                   ("Error: " +:+ telegram.not_initialized) 500), w)).
Proof.
  repeat split.
  - intros Htok. unfold webhook.handler. rewrite Htok. reflexivity.
  - intros Htok Hm. unfold webhook.handler. rewrite Htok. simpl.
    apply String.eqb_neq in Hm. rewrite Hm. reflexivity.
  - intros Htok Hm e Hjson. apply handler_post_undecoded; assumption.
  - intros Htok Hm update Hjson. eapply handler_post_decoded; eassumption.
Qed.

Lemma handler_status_contract_witness :
  webhook.handler None counting_model
    (webhook.mkRequest "GET" "/api/webhook" (Raises "no body")) module_init
  = (Returns (webhook.mkResponse
                "Internal Server Error: Bot Token not configured" 500),
     module_init) /\
  webhook.handler (Some "123:abc") counting_model
    (webhook.mkRequest "GET" "/api/webhook" (Raises "no body")) module_init
  = (Returns (webhook.mkResponse webhook.liveness_body 200), module_init) /\
  webhook.handler (Some "123:abc") counting_model
    (webhook.mkRequest "POST" "/api/webhook" (Raises "Expecting value"))
    module_init
  = (Returns (webhook.mkResponse "Error: Expecting value" 500), module_init) /\
  webhook.handler (Some "123:abc") counting_model
    (post (text_update 7 "Ana" "hola")) module_init
  = (Returns
       (webhook.mkResponse
          "Error: This Application was not initialized via `Application.initialize`!"
          500),
     module_init).
Proof.
  split; [|split; [|split]].
  - apply (proj1 (handler_status_contract None counting_model
                    (webhook.mkRequest "GET" "/api/webhook" (Raises "no body"))
                    module_init)).
    reflexivity.
  - apply (proj1 (proj2 (handler_status_contract (Some "123:abc")
                           counting_model
                           (webhook.mkRequest "GET" "/api/webhook"
                              (Raises "no body"))
                           module_init))).
    + reflexivity.
    + discriminate.
  - apply (proj1 (proj2 (proj2 (handler_status_contract (Some "123:abc")
                                  counting_model
                                  (webhook.mkRequest "POST" "/api/webhook"
                                     (Raises "Expecting value"))
                                  module_init)))).
    + reflexivity.
    + reflexivity.
    + reflexivity.
  - apply (proj2 (proj2 (proj2
             (handler_status_contract (Some "123:abc") counting_model
                (post (text_update 7 "Ana" "hola")) module_init)))
             eq_refl eq_refl (text_update 7 "Ana" "hola")).
    reflexivity.
Defined.

(** ** Invocations and the registry *)

Lemma list_insert_last {A} (l : list A) (x y : A) :
  <[length l := y]> (l ++ [x]) = l ++ [y].
Proof.
  rewrite insert_app_r_alt by lia. rewrite Nat.sub_diag. reflexivity.
Qed.




(** ** The greeting *)





(** ** Every path of a callback *)

Lemma resolve_session_cases llm uid w :
  (exists chat w1,
     ensure_user_chat llm uid w = (Returns tt, w1) /\
     resolve_session llm uid w = (Returns chat, w1)) \/
  (exists e,
     user_chats w !! uid = None /\ genai.start_chat_raises llm = Some e /\
     ensure_user_chat llm uid w = (Raises e, w) /\
     resolve_session llm uid w = (Raises e, w)).
Proof.
  destruct (ensure_user_chat_cases llm uid w)
    as [(r & Hr & He) | [(Hr & Hs & He) | (e & Hr & Hs & He)]].
  - left. exists r, w. split; [exact He|].
    apply resolve_session_present, Hr.
  - left. exists (length (sessions w)), (with_new_chat uid w).
    split; [exact He|]. apply resolve_session_absent; assumption.
  - right. exists e. repeat split; try assumption.
    apply resolve_session_raises; assumption.
Qed.



Lemma reply_for_single_shot_not_empty r : reply_for single_shot r <> "".
Proof.
  unfold reply_for.
  destruct r as [response|e]; [|discriminate].
  destruct (genai.text response) as [t|e]; [|discriminate].
  destruct t as [|ch t]; [|discriminate]. cbn [truthy].
  unfold webhook.empty_response_reply.
  destruct (truthy_opt _); [|discriminate].
  destruct (contains "RECITATION" _); [discriminate|].
  destruct (contains "SAFETY" _); discriminate.
Qed.

(** X2: the single-shot bot never sends an empty message: whenever its
    [handle_message] returns, the one reply it has sent is a non-empty
    text, be it the text of the model, one of the four messages for a
    response without text, or the error message. *)
Theorem single_shot_reply_not_empty llm update w w' :
  webhook.handle_message llm update w = (Returns tt, w') ->
  exists t, outbox w' = outbox w ++ [(chat_of update, t)] /\ t <> "".
Proof.
  intros Hrun.
  destruct (resolve_session_cases llm (user_of update) w)
    as [(chat & w1 & He & Hres) | (e & _ & _ & _ & Hres)].
  - destruct (resolve_session_returns _ _ _ _ _ Hres) as [_ Hout].
    destruct (genai.send_message llm (sessions w1 !!! chat)
                (text_of update)) as [r c] eqn:Hsend.
    pose proof (on_message_run single_shot _ _ _ _ _ _ _ Hres Hsend) as H.
    simpl in H. rewrite H in Hrun. injection Hrun as <-.
    exists (reply_for single_shot r). simpl. rewrite Hout.
    split; [reflexivity | apply reply_for_single_shot_not_empty].
  - pose proof (on_message_resolution_raises single_shot _ _ _ _ _ Hres) as H.
    simpl in H. rewrite H in Hrun. discriminate.
Qed.

Lemma single_shot_reply_not_empty_witness :
  exists t,
    outbox (after_reply (with_new_chat 7 module_init) 0
              (genai.mkChatSession []) (text_update 7 "Ana" "hola")
              webhook.fallback_reply)
    = outbox module_init ++ [(7, t)] /\ t <> "".
Proof.
  apply (single_shot_reply_not_empty
           (constant_model (genai.mkResponse (Returns "") []))
           (text_update 7 "Ana" "hola") module_init).
  vm_compute. reflexivity.
Defined.


(** ** The HTTP handler, end to end *)

(** X3: [handler] never raises: for every token, model, request and state
    of the module it returns a response, whose status is 200 or 500. *)
Theorem handler_always_responds token llm request w :
  exists response w',
    webhook.handler token llm request w = (Returns response, w') /\
    (webhook.statusCode response = 200 \/ webhook.statusCode response = 500).
Proof.
  unfold webhook.handler.
  destruct (negb (truthy_opt token)); [unfold ret; eauto|]. cbv zeta.
  destruct (String.eqb _ _); [|unfold ret; eauto].
  unfold try_except, bind, eval.
  destruct (webhook.json request) as [update|e]; simpl; unfold ret; eauto.
Qed.

(** X4: no callback ever runs through the HTTP handler.  An invocation of
    [handler] leaves the state of the module exactly as it found it: no
    reply is sent, no session is stored, the model is not called.  A POST
    never gets status 200: the status is 200 exactly when the token is
    configured and the method is not POST. *)
Theorem handler_never_runs_a_callback token llm request w :
  snd (webhook.handler token llm request w) = w /\
  (forall response,
     fst (webhook.handler token llm request w) = Returns response ->
     (webhook.statusCode response = 200 <->
      truthy_opt token = true /\ webhook.method request <> "POST")).
Proof.
  split; [apply handler_keeps_world|].
  intros response. unfold webhook.handler.
  destruct (truthy_opt token); simpl.
  - destruct (String.eqb_spec (webhook.method request) "POST") as [Hm|Hm].
    + unfold try_except, bind, eval.
      destruct (webhook.json request) as [update|e]; simpl;
        intros [= <-]; simpl;
        (split; [discriminate | intros [_ H]; tauto]).
    + intros [= <-]. simpl. tauto.
  - intros [= <-]. simpl. split; [discriminate | intros [H _]; discriminate].
Qed.

Lemma handler_never_runs_a_callback_witness :
  snd (webhook.handler (Some "123:abc") counting_model
         (post (text_update 7 "Ana" "hola")) module_init) = module_init /\
  (webhook.statusCode (webhook.mkResponse webhook.liveness_body 200) = 200 <->
   truthy_opt (Some "123:abc") = true /\ "GET" <> "POST").
Proof.
  split.
  - apply (proj1 (handler_never_runs_a_callback (Some "123:abc")
                    counting_model (post (text_update 7 "Ana" "hola"))
                    module_init)).
  - apply (proj2 (handler_never_runs_a_callback (Some "123:abc")
                    counting_model
                    (webhook.mkRequest "GET" "/api/webhook"
                       (Raises "no body"))
                    module_init)).
    reflexivity.
Defined.

(** ** Routing in the long-polling loop *)



Lemma not_routed update :
  (exists c, telegram.bot_command (telegram.message update) = Some c /\
             lower c <> "start") \/
  (telegram.bot_command (telegram.message update) = None /\
   text_of update = "") ->
  is_start_command update = false /\ is_plain_text update = false.
Proof.
  unfold is_start_command, is_plain_text, text_of.
  intros [(c & -> & Hc) | [-> ->]].
  - split.
    + apply bool_decide_eq_false_2. simpl. congruence.
    + rewrite bool_decide_eq_true_2 by eauto. apply andb_false_r.
  - split; [apply bool_decide_eq_false_2; discriminate | reflexivity].
Qed.

(** X6: a command that is not [start] in any letter case, and a message
    without text that is no command, reach neither callback: the
    long-polling loop skips such an update, changing nothing, and goes on
    with the next one. *)
Theorem unrouted_update_is_ignored llm update rest w :
  (exists c, telegram.bot_command (telegram.message update) = Some c /\
             lower c <> "start") \/
  (telegram.bot_command (telegram.message update) = None /\
   text_of update = "") ->
  main.run_polling llm (update :: rest) w = main.run_polling llm rest w.
Proof.
  intros H. destruct (not_routed update H) as [Hcmd Htext].
  simpl. unfold bind, try_except, process_update.
  rewrite Hcmd, Htext. reflexivity.
Qed.

Lemma unrouted_update_is_ignored_witness :
  main.run_polling counting_model
    [telegram.mkUpdate (telegram.mkUser 7 "Ana")
       (telegram.mkMessage 7 "/help" (Some "help"));
     text_update 7 "Ana" "hola"] module_init
  = main.run_polling counting_model [text_update 7 "Ana" "hola"] module_init.
Proof.
  apply (unrouted_update_is_ignored counting_model
           (telegram.mkUpdate (telegram.mkUser 7 "Ana")
              (telegram.mkMessage 7 "/help" (Some "help")))
           [text_update 7 "Ana" "hola"] module_init).
  left. exists "help". split; [reflexivity | vm_compute; discriminate].
Defined.

(** ** The long-polling loop *)

Lemma run_polling_returns llm updates w :
  fst (main.run_polling llm updates w) = Returns tt.
Proof.
  revert w. induction updates as [|update rest IH]; intros w; [reflexivity|].
  simpl. unfold bind, try_except, main.error_handler, ret.
  destruct (process_update _ _ update w) as [[[]|e] w1]; apply IH.
Qed.

(** X7: the long-polling loop never stops on an error and handles the
    updates one after the other: it returns for every list of updates, an
    exception of a callback being left to [error_handler]; and running it on
    a list of updates followed by another is running it on the first list
    and then, from the world that leaves, on the second. *)
Theorem run_polling_app llm updates1 updates2 w :
  fst (main.run_polling llm (updates1 ++ updates2) w) = Returns tt /\
  main.run_polling llm (updates1 ++ updates2) w
  = main.run_polling llm updates2 (snd (main.run_polling llm updates1 w)).
Proof.
  split; [apply run_polling_returns|].
  revert w. induction updates1 as [|update rest IH]; intros w; [reflexivity|].
  simpl. unfold bind, try_except, main.error_handler, ret.
  destruct (process_update _ _ update w) as [[[]|e] w1]; apply IH.
Qed.


(** ** How a response without text is classified *)

Lemma prefix_true_append (x s : string) :
  String.prefix x s = true -> exists b, s = x +:+ b.
Proof.
  revert s. induction x as [|ch x IH]; intros s H; [exists s; reflexivity|].
  destruct s as [|ch' s]; [discriminate H|]. simpl in H.
  destruct (ascii_dec ch ch') as [<-|]; [|discriminate H].
  destruct (IH s H) as [b ->]. exists b. reflexivity.
Qed.

(** X8: the test [needle in hay] of the model is the substring test: it
    holds exactly when [hay] is some text, then [needle], then some text. *)
Theorem contains_spec (needle hay : string) :
  contains needle hay = true <-> exists a b, hay = a +:+ needle +:+ b.
Proof.
  split.
  - induction hay as [|ch hay IH]; cbn [contains]; intros H.
    + rewrite orb_false_r in H.
      destruct (prefix_true_append _ _ H) as [b Hb]. exists "", b. exact Hb.
    + apply orb_true_iff in H as [H|H].
      * destruct (prefix_true_append _ _ H) as [b Hb]. exists "", b. exact Hb.
      * destruct (IH H) as (a & b & ->). exists (String ch a), b. reflexivity.
  - intros (a & b & ->). apply contains_middle.
Qed.

Lemma contains_spec_witness :
  exists a b, "FINISH_REASON_RECITATION" = a +:+ "RECITATION" +:+ b.
Proof.
  apply (proj1 (contains_spec "RECITATION" "FINISH_REASON_RECITATION")).
  reflexivity.
Defined.

Lemma truthy_middle (a x b : string) : x <> "" -> truthy (a +:+ x +:+ b) = true.
Proof.
  intros Hx. destruct a; [|reflexivity].
  destruct x; [congruence | reflexivity].
Qed.

(** X9: the reason is matched by substring, recitation first.  A reason
    that has ["RECITATION"] anywhere in it gets the recitation message, also
    when it has ["SAFETY"] in it as well; a reason that has ["SAFETY"]
    somewhere and ["RECITATION"] nowhere gets the safety message. *)
Theorem reason_is_matched_anywhere (a b : string) :
  webhook.empty_response_reply (Some (a +:+ "RECITATION" +:+ b))
  = webhook.recitation_reply /\
  (contains "RECITATION" (a +:+ "SAFETY" +:+ b) = false ->
   webhook.empty_response_reply (Some (a +:+ "SAFETY" +:+ b))
   = webhook.safety_reply).
Proof.
  unfold webhook.empty_response_reply. cbn [truthy_opt default id].
  rewrite !truthy_middle by discriminate. split.
  - rewrite contains_middle. reflexivity.
  - intros ->. rewrite contains_middle. reflexivity.
Qed.

Lemma reason_is_matched_anywhere_witness :
  webhook.empty_response_reply (Some "FINISH_REASON_SAFETY")
  = webhook.safety_reply.
Proof.
  apply (proj2 (reason_is_matched_anywhere "FINISH_REASON_" "")).
  reflexivity.
Defined.

Lemma first_blocked_none ratings :
  webhook.first_blocked ratings = None <->
  Forall (fun r => genai.blocked r = false) ratings.
Proof.
  induction ratings as [|r rs IH]; simpl.
  - split; [constructor | reflexivity].
  - destruct (genai.blocked r) eqn:Hb.
    + split; [discriminate|]. intros H. inversion H; congruence.
    + rewrite IH. split; [constructor; assumption|].
      intros H. inversion H; assumption.
Qed.

(** X10: the loop over the safety ratings stops at the first blocked one.
    It finds no reason exactly when no rating is blocked; and when a rating
    is blocked and none before it is, the reason is ["SEGURIDAD: "]
    followed by the category of that rating, whatever comes after it. *)
Theorem first_blocked_spec ratings before rating after :
  (webhook.first_blocked ratings = None <->
   Forall (fun r => genai.blocked r = false) ratings) /\
  (Forall (fun r => genai.blocked r = false) before ->
   genai.blocked rating = true ->
   webhook.first_blocked (before ++ rating :: after)
   = Some ("SEGURIDAD: " +:+ genai.category rating)).
Proof.
  split; [apply first_blocked_none|].
  - intros Hbefore Hblocked.
    induction Hbefore as [|r rs Hr _ IH]; simpl.
    + rewrite Hblocked. reflexivity.
    + rewrite Hr. exact IH.
Qed.

Lemma first_blocked_spec_witness :
  webhook.first_blocked
    ([genai.mkSafetyRating false "HARM_CATEGORY_HARASSMENT"] ++
     genai.mkSafetyRating true "HARM_CATEGORY_HATE_SPEECH" ::
     [genai.mkSafetyRating true "HARM_CATEGORY_DANGEROUS_CONTENT"])
  = Some ("SEGURIDAD: " +:+ "HARM_CATEGORY_HATE_SPEECH").
Proof.
  apply (proj2 (first_blocked_spec []
                  [genai.mkSafetyRating false "HARM_CATEGORY_HARASSMENT"]
                  (genai.mkSafetyRating true "HARM_CATEGORY_HATE_SPEECH")
                  [genai.mkSafetyRating true
                     "HARM_CATEGORY_DANGEROUS_CONTENT"])).
  - repeat constructor.
  - reflexivity.
Defined.

(** X11: of the candidates of a response without text only the first is
    looked at: the one reply [handle_message] sends is the reply for the
    response cut down to its first candidate. *)
Theorem later_candidates_are_ignored
    llm update w chat w1 response c first rest :
  resolve_session llm (user_of update) w = (Returns chat, w1) ->
  genai.send_message llm (sessions w1 !!! chat) (text_of update)
  = (Returns response, c) ->
  genai.text response = Returns "" ->
  genai.candidates response = first :: rest ->
  exists w',
    webhook.handle_message llm update w = (Returns tt, w') /\
    outbox w'
    = outbox w ++
      [(chat_of update,
        webhook.empty_response_reply
          (webhook.find_finish_reason
             (genai.mkResponse (Returns "") [first])))].
Proof.
  intros Hres Hsend Htext Hc.
  destruct (empty_response_run _ _ _ _ _ _ _ Hres Hsend Htext)
    as (w' & Hrun & Hout).
  exists w'. split; [exact Hrun|]. rewrite Hout.
  unfold webhook.find_finish_reason. rewrite Hc. reflexivity.
Qed.

Lemma later_candidates_are_ignored_witness :
  exists w',
    webhook.handle_message
      (constant_model
         (genai.mkResponse (Returns "")
            [genai.mkCandidate (Some "MAX_TOKENS") None;
             genai.mkCandidate (Some "SAFETY") None]))
      (text_update 7 "Ana" "hola") module_init = (Returns tt, w') /\
    outbox w'
    = outbox module_init ++
      [(7, webhook.empty_response_reply
             (webhook.find_finish_reason
                (genai.mkResponse (Returns "")
                   [genai.mkCandidate (Some "MAX_TOKENS") None])))].
Proof.
  apply (later_candidates_are_ignored
           (constant_model
              (genai.mkResponse (Returns "")
                 [genai.mkCandidate (Some "MAX_TOKENS") None;
                  genai.mkCandidate (Some "SAFETY") None]))
           (text_update 7 "Ana" "hola") module_init
           0%nat (with_new_chat 7 module_init)
           (genai.mkResponse (Returns "")
              [genai.mkCandidate (Some "MAX_TOKENS") None;
               genai.mkCandidate (Some "SAFETY") None])
           (genai.mkChatSession [])
           (genai.mkCandidate (Some "MAX_TOKENS") None)
           [genai.mkCandidate (Some "SAFETY") None]).
  - vm_compute. reflexivity.
  - reflexivity.
  - reflexivity.
  - reflexivity.
Defined.

(** X12: when no reason can be found the generic message is sent.  For a
    response without text that has no candidate, or whose first candidate
    has an empty finish reason, or has no [finish_reason] attribute and no
    blocked safety rating, the one reply of [handle_message] is the generic
    could-not-produce-a-response message. *)
Theorem no_reason_gives_fallback llm update w chat w1 response c :
  resolve_session llm (user_of update) w = (Returns chat, w1) ->
  genai.send_message llm (sessions w1 !!! chat) (text_of update)
  = (Returns response, c) ->
  genai.text response = Returns "" ->
  match genai.candidates response with
  | [] => True
  | first :: _ =>
      match genai.finish_reason first with
      | Some name => name = ""
      | None =>
          match genai.safety_ratings first with
          | None => True
          | Some ratings =>
              Forall (fun r => genai.blocked r = false) ratings
          end
      end
  end ->
  exists w',
    webhook.handle_message llm update w = (Returns tt, w') /\
    outbox w' = outbox w ++ [(chat_of update, webhook.fallback_reply)].
Proof.
  intros Hres Hsend Htext Hnone.
  destruct (empty_response_run _ _ _ _ _ _ _ Hres Hsend Htext)
    as (w' & Hrun & Hout).
  exists w'. split; [exact Hrun|]. rewrite Hout. do 3 f_equal.
  unfold webhook.find_finish_reason.
  destruct (genai.candidates response) as [|first rest]; [reflexivity|].
  destruct (genai.finish_reason first) as [name|]; [subst name; reflexivity|].
  destruct (genai.safety_ratings first) as [[|r rs]|]; try reflexivity.
  apply first_blocked_none in Hnone.
  rewrite Hnone. reflexivity.
Qed.

Lemma no_reason_gives_fallback_witness :
  exists w',
    webhook.handle_message
      (constant_model
         (genai.mkResponse (Returns "")
            [genai.mkCandidate None
               (Some [genai.mkSafetyRating false "HARM_CATEGORY_HARASSMENT"])]))
      (text_update 7 "Ana" "hola") module_init = (Returns tt, w') /\
    outbox w' = outbox module_init ++ [(7, webhook.fallback_reply)].
Proof.
  apply (no_reason_gives_fallback
           (constant_model
              (genai.mkResponse (Returns "")
                 [genai.mkCandidate None
                    (Some [genai.mkSafetyRating false
                             "HARM_CATEGORY_HARASSMENT"])]))
           (text_update 7 "Ana" "hola") module_init
           0%nat (with_new_chat 7 module_init)
           (genai.mkResponse (Returns "")
              [genai.mkCandidate None
                 (Some [genai.mkSafetyRating false
                          "HARM_CATEGORY_HARASSMENT"])])
           (genai.mkChatSession [])).
  - vm_compute. reflexivity.
  - reflexivity.
  - reflexivity.
  - simpl. repeat constructor.
Defined.


(** ** Conversations *)

(** X13: the bot remembers.  Two text messages of a user with an entry,
    handled one after the other in either variant, both return; the second
    is sent in the session object in the state the first call of the model
    left it in, and the object ends in the state the second call leaves;
    the registry is as before and two replies have been appended. *)
Theorem conversation_continues v llm update1 update2 w r :
  user_of update2 = user_of update1 ->
  user_chats w !! user_of update1 = Some r ->
  (r < length (sessions w))%nat ->
  exists w1 w2 t1 t2,
    on_message v llm update1 w = (Returns tt, w1) /\
    on_message v llm update2 w1 = (Returns tt, w2) /\
    sessions w1 !!! r
    = snd (genai.send_message llm (sessions w !!! r) (text_of update1)) /\
    sessions w2
    = <[r := snd (genai.send_message llm (sessions w1 !!! r)
                    (text_of update2))]> (sessions w) /\
    user_chats w2 = user_chats w /\
    outbox w2 = outbox w ++ [(chat_of update1, t1); (chat_of update2, t2)].
Proof.
  intros Huser Hr Hlt.
  pose proof (resolve_session_present llm _ _ _ Hr) as Hres1.
  destruct (genai.send_message llm (sessions w !!! r) (text_of update1))
    as [r1 c1] eqn:Hsend1.
  pose proof (on_message_run v _ _ _ _ _ _ _ Hres1 Hsend1) as Hrun1.
  set (w1 := after_reply w r c1 update1 (reply_for v r1)) in *.
  assert (user_chats w1 !! user_of update2 = Some r) as Hr2
    by (rewrite Huser; exact Hr).
  pose proof (resolve_session_present llm _ _ _ Hr2) as Hres2.
  destruct (genai.send_message llm (sessions w1 !!! r) (text_of update2))
    as [r2 c2] eqn:Hsend2.
  pose proof (on_message_run v _ _ _ _ _ _ _ Hres2 Hsend2) as Hrun2.
  exists w1, (after_reply w1 r c2 update2 (reply_for v r2)),
    (reply_for v r1), (reply_for v r2).
  split; [exact Hrun1|]. split; [exact Hrun2|].
  split; [|split; [|split]].
  - simpl. apply list_lookup_total_insert_eq. exact Hlt.
  - rewrite Hsend2. simpl. apply list_insert_insert_eq.
  - reflexivity.
  - simpl. rewrite <- app_assoc. reflexivity.
Qed.

Lemma conversation_continues_witness :
  exists w1 w2 t1 t2,
    on_message long_polling counting_model (text_update 7 "Ana" "hola")
      (with_new_chat 7 module_init) = (Returns tt, w1) /\
    on_message long_polling counting_model (text_update 7 "Ana" "¿qué tal?")
      w1 = (Returns tt, w2) /\
    sessions w1 !!! 0%nat
    = snd (genai.send_message counting_model
             (sessions (with_new_chat 7 module_init) !!! 0%nat) "hola") /\
    sessions w2
    = <[0%nat := snd (genai.send_message counting_model
                        (sessions w1 !!! 0%nat) "¿qué tal?")]>
        (sessions (with_new_chat 7 module_init)) /\
    user_chats w2 = user_chats (with_new_chat 7 module_init) /\
    outbox w2
    = outbox (with_new_chat 7 module_init) ++ [(7, t1); (7, t2)].
Proof.
  apply (conversation_continues long_polling counting_model
           (text_update 7 "Ana" "hola") (text_update 7 "Ana" "¿qué tal?")
           (with_new_chat 7 module_init) 0%nat).
  - reflexivity.
  - reflexivity.
  - simpl. lia.
Defined.



(** X15: the session-creation statement is idempotent: once it has
    returned, running it again for the same user returns as well and
    changes nothing, whatever [start_chat] would do then. *)
Theorem ensure_user_chat_idempotent llm llm' uid w w1 :
  ensure_user_chat llm uid w = (Returns tt, w1) ->
  ensure_user_chat llm' uid w1 = (Returns tt, w1).
Proof.
  intros He.
  destruct (ensure_user_chat_cases llm uid w)
    as [(r & Hr & He') | [(Hr & Hs & He') | (e & _ & _ & He')]];
    rewrite He' in He; [| |discriminate]; injection He as <-.
  - eapply ensure_user_chat_present. exact Hr.
  - eapply ensure_user_chat_present. apply with_new_chat_lookup.
Qed.

Lemma ensure_user_chat_idempotent_witness :
  ensure_user_chat (refusing_model "quota exceeded") 7
    (with_new_chat 7 module_init)
  = (Returns tt, with_new_chat 7 module_init).
Proof.
  apply (ensure_user_chat_idempotent counting_model
           (refusing_model "quota exceeded") 7 module_init).
  reflexivity.
Defined.

(** ** Well-formed worlds are all there is *)

Lemma process_update_store_ok v llm update w :
  store_ok w ->
  store_ok (snd (process_update (on_start v llm) (on_message v llm) update w)).
Proof.
  intros Hok. unfold process_update.
  destruct (is_start_command update);
    [exact (interact_store_ok v command_start llm update w Hok)|].
  destruct (is_plain_text update);
    [exact (interact_store_ok v text_message llm update w Hok)|].
  exact Hok.
Qed.

Lemma run_polling_store_ok llm updates w :
  store_ok w -> store_ok (snd (main.run_polling llm updates w)).
Proof.
  revert w. induction updates as [|update rest IH]; intros w Hok; [exact Hok|].
  simpl. unfold bind, try_except, main.error_handler, ret.
  pose proof (process_update_store_ok long_polling llm update w Hok) as H.
  simpl in H.
  destruct (process_update _ _ update w) as [[[]|e] w1]; apply IH, H.
Qed.

Lemma handler_store_ok token llm request w :
  store_ok w -> store_ok (snd (webhook.handler token llm request w)).
Proof. intros Hok. rewrite handler_keeps_world. exact Hok. Qed.

(** X16: no two users ever share a session object.  Every world the
    long-polling bot reaches from a freshly imported module is well formed:
    each registry entry points to a session object of the store, and two
    users never point to the same one.  The long-polling loop and the HTTP
    handler keep a well-formed world well formed. *)
Theorem reachable_worlds_are_well_formed token llm updates request w :
  store_ok (snd (main.main llm updates)) /\
  (store_ok w ->
   store_ok (snd (main.run_polling llm updates w)) /\
   store_ok (snd (webhook.handler token llm request w))).
Proof.
  split.
  - apply run_polling_store_ok, store_ok_init.
  - intros Hok. split; [apply run_polling_store_ok | apply handler_store_ok];
      exact Hok.
Qed.

Lemma reachable_worlds_are_well_formed_witness :
  store_ok
    (snd (main.run_polling counting_model [text_update 7 "Ana" "hola"]
            module_init)) /\
  store_ok
    (snd (webhook.handler (Some "123:abc") counting_model
            (post (text_update 7 "Ana" "hola")) module_init)).
Proof.
  apply (proj2 (reachable_worlds_are_well_formed (Some "123:abc")
                  counting_model [text_update 7 "Ana" "hola"]
                  (post (text_update 7 "Ana" "hola")) module_init)).
  apply store_ok_init.
Defined.

Lemma other_users_session_untouched_witness :
  sessions
    (snd (interact long_polling text_message counting_model
            (text_update 7 "Ana" "hola")
            (with_new_chat 8 module_init))) !! 0%nat
  = sessions (with_new_chat 8 module_init) !! 0%nat.
Proof.
  apply (other_users_session_untouched long_polling text_message
           counting_model (text_update 7 "Ana" "hola")
           (with_new_chat 8 module_init) 8 0%nat).
  - apply store_ok_with_new_chat; [reflexivity | apply store_ok_init].
  - vm_compute. discriminate.
  - reflexivity.
Defined.


(** ** The two bots compared *)

(** X17: the two bots differ in the texts they send and in nothing else.
    On the same update, from the same world and with the same model, the
    callback of the long-polling bot and that of the single-shot bot return
    or raise alike and leave the same registry and the same session objects;
    both have sent a reply or neither has. *)
Theorem variants_agree_on_state k llm update w :
  fst (interact long_polling k llm update w)
  = fst (interact single_shot k llm update w) /\
  user_chats (snd (interact long_polling k llm update w))
  = user_chats (snd (interact single_shot k llm update w)) /\
  sessions (snd (interact long_polling k llm update w))
  = sessions (snd (interact single_shot k llm update w)) /\
  length (outbox (snd (interact long_polling k llm update w)))
  = length (outbox (snd (interact single_shot k llm update w))).
Proof.
  destruct (resolve_session_cases llm (user_of update) w)
    as [(chat & w1 & He & Hres) | (e & _ & _ & He & Hres)].
  - destruct k; cbn [interact].
    + rewrite (on_start_run long_polling _ _ _ _ He),
        (on_start_run single_shot _ _ _ _ He).
      simpl. rewrite !length_app. auto.
    + destruct (genai.send_message llm (sessions w1 !!! chat)
                  (text_of update)) as [r c] eqn:Hsend.
      rewrite (on_message_run long_polling _ _ _ _ _ _ _ Hres Hsend),
        (on_message_run single_shot _ _ _ _ _ _ _ Hres Hsend).
      simpl. rewrite !length_app. auto.
  - destruct k; cbn [interact].
    + rewrite (on_start_raises long_polling _ _ _ _ _ He),
        (on_start_raises single_shot _ _ _ _ _ He). auto.
    + rewrite (on_message_resolution_raises long_polling _ _ _ _ _ Hres),
        (on_message_resolution_raises single_shot _ _ _ _ _ Hres). auto.
Qed.
